(** * bonsai, [src/renderer/event.js]: normalized keyboard and pointer events

    A shallow embedding of the module's two constructors, their [fromDom...]
    factories and their [clone] methods, over a small model of the JavaScript
    values they handle: numbers are IEEE 754 binary64 floats, the bitwise
    operators go through [ToInt32], platform objects are property maps read
    through a store of references, and a property read on [undefined] or
    [null] throws. *)

From Stdlib Require Import ZArith Floats Uint63 String Ascii Lia.
From stdpp Require Import base option list strings gmap.

Local Open Scope Z_scope.

(** ** Values *)

(** Object references: two references are the same object exactly when
    they are the same location. *)
Definition loc := positive.

Inductive value :=
| VUndefined
| VNull
| VBool (b : bool)
| VNumber (n : float)
| VString (s : string)
| VRef (l : loc)
| VNative (name : string).
(* [VNative name]: the built-in member [name] of [Object.prototype]. *)

(** An object as the module sees it: its named properties, and its indexed
    elements when it is array-like (a [TouchList]). *)
Record jsobj := mkObj {
  props : gmap string value;
  elems : list value
}.

(** Every reference denotes an object; the store is only ever read. *)
Definition heap := loc -> jsobj.

Inductive error := TypeError.

Inductive completion (A : Type) :=
| Normal (a : A)
| Throw (e : error).
Arguments Normal {A} a.
Arguments Throw {A} e.

#[global] Instance completion_ret : MRet completion := fun _ a => Normal a.
#[global] Instance completion_bind : MBind completion := fun _ _ f c =>
  match c with
  | Normal a => f a
  | Throw e => Throw e
  end.

(** The part of the host the source relies on but does not contain: the
    reading of a string as a number ([ToNumber] applied to a string). *)
Class Runtime := { StringToNumber : string -> float }.

(** ** Conversions and operators *)

(** [ToBoolean]: what [c ? a : b], [!!c] and [a || b] test. *)
Definition truthy (v : value) : bool :=
  match v with
  | VUndefined | VNull => false
  | VBool b => b
  | VNumber n => negb (PrimFloat.eqb n 0 || PrimFloat.is_nan n)
  | VString s => negb (String.eqb s "")
  | VRef _ | VNative _ => true
  end.

(** [a || b] *)
Definition js_or (a b : value) : value := if truthy a then a else b.

(** [!!a] *)
Definition js_notnot (a : value) : value := VBool (truthy a).

(** Integral part of a float, toward zero; 0 for NaN and the infinities. *)
Definition trunc_Z (f : float) : Z :=
  match Prim2SF f with
  | S754_finite s m e =>
      let mag := Z.shiftl (Z.pos m) e in
      if s then - mag else mag
  | _ => 0
  end.

(** Wrap-around into the signed 32-bit range. *)
Definition int32 (z : Z) : Z := (z + 2 ^ 31) mod 2 ^ 32 - 2 ^ 31.

Definition ToInt32 (f : float) : Z := int32 (trunc_Z f).
Definition ToUint32 (f : float) : Z := trunc_Z f mod 2 ^ 32.

(** The number that an integer of the 32-bit range denotes. *)
Definition number_of_Z (z : Z) : float :=
  if z <? 0 then PrimFloat.opp (PrimFloat.of_uint63 (Uint63.of_Z (- z)))
  else PrimFloat.of_uint63 (Uint63.of_Z z).

Definition number_of_nat (k : nat) : float := number_of_Z (Z.of_nat k).

(** [===] *)
Definition strict_eq (a b : value) : bool :=
  match a, b with
  | VUndefined, VUndefined => true
  | VNull, VNull => true
  | VBool x, VBool y => Bool.eqb x y
  | VNumber x, VNumber y => PrimFloat.eqb x y
  | VString x, VString y => String.eqb x y
  | VRef x, VRef y => Pos.eqb x y
  | VNative x, VNative y => String.eqb x y
  | _, _ => false
  end.

Section Operators.
Context `{RT : Runtime}.

(** [ToNumber]. The objects of this model are plain data objects, whose
    default primitive value is not numeric. *)
Definition ToNumber (v : value) : float :=
  match v with
  | VUndefined => nan
  | VNull => 0%float
  | VBool b => if b then 1%float else 0%float
  | VNumber n => n
  | VString s => StringToNumber s
  | VRef _ | VNative _ => nan
  end.

(** [a - b] *)
Definition js_sub (a b : value) : value :=
  VNumber (PrimFloat.sub (ToNumber a) (ToNumber b)).

(** [a & b] *)
Definition js_bitand (a b : value) : value :=
  VNumber (number_of_Z
    (int32 (Z.land (ToInt32 (ToNumber a)) (ToInt32 (ToNumber b))))).

(** [a | b] *)
Definition js_bitor (a b : value) : value :=
  VNumber (number_of_Z
    (int32 (Z.lor (ToInt32 (ToNumber a)) (ToInt32 (ToNumber b))))).

(** [a << b] *)
Definition js_shl (a b : value) : value :=
  VNumber (number_of_Z
    (int32 (Z.shiftl (ToInt32 (ToNumber a))
                     (Z.land (ToUint32 (ToNumber b)) 31)))).
End Operators.

(** ** Property reads *)

(** The members every object inherits from [Object.prototype]. *)
Definition ObjectPrototype : list string :=
  [ "constructor"; "toString"; "toLocaleString"; "valueOf";
    "hasOwnProperty"; "isPrototypeOf"; "propertyIsEnumerable";
    "__proto__"; "__defineGetter__"; "__defineSetter__";
    "__lookupGetter__"; "__lookupSetter__" ]%string.

(** [o[k]] for an object [o]: its own property, else the inherited member,
    else [undefined]. *)
Definition Get (o : jsobj) (k : string) : value :=
  match props o !! k with
  | Some v => v
  | None => if bool_decide (k ∈ ObjectPrototype) then VNative k else VUndefined
  end.

Definition empty_obj : jsobj := mkObj ∅ [].

(** [v.k] for any value [v]: throws on [undefined] and [null]. The names
    this module reads are not members of the wrappers of primitives, which
    therefore read as an object without properties of its own. *)
Definition GetV (h : heap) (v : value) (k : string) : completion value :=
  match v with
  | VUndefined | VNull => Throw TypeError
  | VRef l => Normal (Get (h l) k)
  | VBool _ | VNumber _ | VString _ | VNative _ => Normal (Get empty_obj k)
  end.

(** ** [Array.prototype.indexOf] on an array-like receiver *)

Definition chars (s : string) : list value :=
  map (fun c => VString (String c EmptyString)) (list_ascii_of_string s).

(** The indexed elements of [ToObject(O)]. *)
Definition ToObject_elems (h : heap) (O : value) : completion (list value) :=
  match O with
  | VUndefined | VNull => Throw TypeError
  | VRef l => Normal (elems (h l))
  | VString s => Normal (chars s)
  | VBool _ | VNumber _ | VNative _ => Normal []
  end.

(** The scan: the first index [k], counted from [k0], whose element is
    strictly equal to the searched one. *)
Fixpoint indexOf_from (k0 : nat) (es : list value) (x : value) : option nat :=
  match es with
  | [] => None
  | e :: es' => if strict_eq e x then Some k0 else indexOf_from (S k0) es' x
  end.

(** [indexOf.call(O, x)] *)
Definition indexOf_call (h : heap) (O x : value) : completion value :=
  es ← ToObject_elems h O;
  mret (match indexOf_from 0 es x with
        | Some k => VNumber (number_of_nat k)
        | None => VNumber (-1)%float
        end).

(** ** Constants of the module *)

Section Constants.
Context `{RT : Runtime}.

Definition NO_MODIFIER : value := VNumber 0.
Definition ALT_KEY : value := js_shl (VNumber 1) (VNumber 0).
Definition CTRL_KEY : value := js_shl (VNumber 1) (VNumber 1).
Definition META_KEY : value := js_shl (VNumber 1) (VNumber 2).
Definition SHIFT_KEY : value := js_shl (VNumber 1) (VNumber 3).
End Constants.

(** [var eventTypeMap = { ... }], an object literal. *)
Definition eventTypeMap : jsobj :=
  mkObj (list_to_map
           [ ("mouseup", VString "pointerup");
             ("mousedown", VString "pointerdown");
             ("mousemove", VString "pointermove");
             ("mouseover", VString "mouseover");
             ("mouseout", VString "mouseout") ]%string) [].

(** [o[key]] with a computed key. A key that is not a string is first
    turned into one; the string image of [undefined], [null], a boolean, a
    number or a plain object names no property of an object literal nor of
    [Object.prototype]. *)
Definition GetKeyed (o : jsobj) (key : value) : value :=
  match key with
  | VString s => Get o s
  | _ => VUndefined
  end.

(** ** KeyboardEvent *)

Module KeyboardEvent.

Record t := mk {
  type : value;
  keyCode : value;
  inputValue : value;
  altKey : value;
  ctrlKey : value;
  metaKey : value;
  shiftKey : value
}.

Section Ops.
Context `{RT : Runtime}.

(** [function KeyboardEvent(type, keyCode, modifiers, targetValue)];
    an omitted argument is [VUndefined]. *)
Definition KeyboardEvent (type keyCode modifiers targetValue : value) : t :=
  {| type := type;
     keyCode := keyCode;
     inputValue := targetValue;
     altKey := js_notnot (js_bitand modifiers ALT_KEY);
     ctrlKey := js_notnot (js_bitand modifiers CTRL_KEY);
     metaKey := js_notnot (js_bitand modifiers META_KEY);
     shiftKey := js_notnot (js_bitand modifiers SHIFT_KEY) |}.

(** The mask both [fromDomEvent] and [clone] build from four flags. *)
Definition modifiers_of (alt ctrl meta shift : value) : value :=
  js_bitor
    (js_bitor
       (js_bitor (if truthy alt then ALT_KEY else VNumber 0)
                 (if truthy ctrl then CTRL_KEY else VNumber 0))
       (if truthy meta then META_KEY else VNumber 0))
    (if truthy shift then SHIFT_KEY else VNumber 0).

(** [KeyboardEvent.fromDomEvent = function(type, keys, targetValue)] *)
Definition fromDomEvent (h : heap) (type keys targetValue : value)
  : completion t :=
  alt ← GetV h keys "altKey";
  ctrl ← GetV h keys "ctrlKey";
  meta ← GetV h keys "metaKey";
  shift ← GetV h keys "shiftKey";
  let modifiers := modifiers_of alt ctrl meta shift in
  code ← GetV h keys "keyCode";
  mret (KeyboardEvent VUndefined code modifiers targetValue).

(** [KeyboardEvent.prototype.clone = function(type)] *)
Definition clone (this : t) (type' : value) : t :=
  let modifiers :=
    modifiers_of (altKey this) (ctrlKey this) (metaKey this) (shiftKey this) in
  KeyboardEvent (js_or type' (type this)) (keyCode this) modifiers
                (inputValue this).
End Ops.

End KeyboardEvent.

(** ** PointerEvent *)

Module PointerEvent.

Record t := mk {
  type : value;
  stageX : value;
  x : value;
  stageY : value;
  y : value;
  clientX : value;
  clientY : value;
  deltaX : value;
  deltaY : value;
  diffX : value;
  diffY : value;
  isLeft : value;
  isRight : value;
  isMiddle : value;
  touchId : value;
  touchIndex : value
}.

(** Assignments to one property of an event, [e.f = v]. *)
Definition set_deltaX (v : value) (e : t) : t :=
  mk (type e) (stageX e) (x e) (stageY e) (y e) (clientX e) (clientY e)
     v (deltaY e) (diffX e) (diffY e)
     (isLeft e) (isRight e) (isMiddle e) (touchId e) (touchIndex e).
Definition set_deltaY (v : value) (e : t) : t :=
  mk (type e) (stageX e) (x e) (stageY e) (y e) (clientX e) (clientY e)
     (deltaX e) v (diffX e) (diffY e)
     (isLeft e) (isRight e) (isMiddle e) (touchId e) (touchIndex e).
Definition set_diffX (v : value) (e : t) : t :=
  mk (type e) (stageX e) (x e) (stageY e) (y e) (clientX e) (clientY e)
     (deltaX e) (deltaY e) v (diffY e)
     (isLeft e) (isRight e) (isMiddle e) (touchId e) (touchIndex e).
Definition set_diffY (v : value) (e : t) : t :=
  mk (type e) (stageX e) (x e) (stageY e) (y e) (clientX e) (clientY e)
     (deltaX e) (deltaY e) (diffX e) v
     (isLeft e) (isRight e) (isMiddle e) (touchId e) (touchIndex e).
Definition set_isLeft (v : value) (e : t) : t :=
  mk (type e) (stageX e) (x e) (stageY e) (y e) (clientX e) (clientY e)
     (deltaX e) (deltaY e) (diffX e) (diffY e)
     v (isRight e) (isMiddle e) (touchId e) (touchIndex e).
Definition set_isRight (v : value) (e : t) : t :=
  mk (type e) (stageX e) (x e) (stageY e) (y e) (clientX e) (clientY e)
     (deltaX e) (deltaY e) (diffX e) (diffY e)
     (isLeft e) v (isMiddle e) (touchId e) (touchIndex e).
Definition set_isMiddle (v : value) (e : t) : t :=
  mk (type e) (stageX e) (x e) (stageY e) (y e) (clientX e) (clientY e)
     (deltaX e) (deltaY e) (diffX e) (diffY e)
     (isLeft e) (isRight e) v (touchId e) (touchIndex e).
Definition set_touchId (v : value) (e : t) : t :=
  mk (type e) (stageX e) (x e) (stageY e) (y e) (clientX e) (clientY e)
     (deltaX e) (deltaY e) (diffX e) (diffY e)
     (isLeft e) (isRight e) (isMiddle e) v (touchIndex e).
Definition set_touchIndex (v : value) (e : t) : t :=
  mk (type e) (stageX e) (x e) (stageY e) (y e) (clientX e) (clientY e)
     (deltaX e) (deltaY e) (diffX e) (diffY e)
     (isLeft e) (isRight e) (isMiddle e) (touchId e) v.

(** [function PointerEvent(type, stageX, stageY, clientX, clientY)] *)
Definition PointerEvent (type stageX stageY clientX clientY : value) : t :=
  {| type := type;
     stageX := stageX; x := stageX;
     stageY := stageY; y := stageY;
     clientX := clientX;
     clientY := clientY;
     deltaX := VUndefined; deltaY := VUndefined;
     diffX := VUndefined; diffY := VUndefined;
     isLeft := VUndefined; isRight := VUndefined; isMiddle := VUndefined;
     touchId := VUndefined; touchIndex := VUndefined |}.

(** [PointerEvent.prototype.clone = function(type)] *)
Definition clone (this : t) (type' : value) : t :=
  let clone := PointerEvent (js_or type' (type this)) (x this) (y this)
                            (clientX this) (clientY this) in
  let clone := set_deltaX (deltaX this) clone in
  let clone := set_deltaY (deltaY this) clone in
  let clone := set_diffX (diffX this) clone in
  let clone := set_diffY (diffY this) clone in
  let clone := set_isLeft (isLeft this) clone in
  let clone := set_isRight (isRight this) clone in
  let clone := set_isMiddle (isMiddle this) clone in
  let clone := set_isLeft (isLeft this) clone in
  let clone := set_touchId (touchId this) clone in
  let clone := set_touchIndex (touchIndex this) clone in
  clone.

Section Ops.
Context `{RT : Runtime}.

(** [PointerEvent.fromDomEvent =
      function(domType, clientOffsets, stageClientX, stageClientY)] *)
Definition fromDomEvent (h : heap)
    (domType clientOffsets stageClientX stageClientY : value)
  : completion t :=
  cX ← GetV h clientOffsets "clientX";
  cY ← GetV h clientOffsets "clientY";
  mret (PointerEvent VUndefined (js_sub cX stageClientX)
                     (js_sub cY stageClientY) cX cY).

(** [PointerEvent.fromDomMouseEvent = function(domEvent, stageX, stageY)] *)
Definition fromDomMouseEvent (h : heap) (domEvent stageX stageY : value)
  : completion t :=
  cX ← GetV h domEvent "clientX";
  cY ← GetV h domEvent "clientY";
  rawType ← GetV h domEvent "type";
  mret (PointerEvent (GetKeyed eventTypeMap rawType)
                     (js_sub cX stageX) (js_sub cY stageY) cX cY).

(** [PointerEvent.fromDomTouch =
      function(domTouch, domEvent, stageX, stageY)] *)
Definition fromDomTouch (h : heap) (domTouch domEvent stageX stageY : value)
  : completion t :=
  cX ← GetV h domTouch "clientX";
  cY ← GetV h domTouch "clientY";
  let pointerEvent :=
    PointerEvent VUndefined (js_sub cX stageX) (js_sub cY stageY) cX cY in
  identifier ← GetV h domTouch "identifier";
  let pointerEvent := set_touchId identifier pointerEvent in
  touches ← GetV h domEvent "touches";
  index ← indexOf_call h touches domTouch;
  let pointerEvent := set_touchIndex index pointerEvent in
  mret pointerEvent.
End Ops.

End PointerEvent.

(** ** A host to evaluate the model on *)

Fixpoint digits_value (acc : Z) (s : string) : option Z :=
  match s with
  | EmptyString => Some acc
  | String c r =>
      let d := Z.of_N (N_of_ascii c) - 48 in
      if (0 <=? d) && (d <=? 9) then digits_value (10 * acc + d) r else None
  end.

(** Reads the strings of at most fifteen decimal digits; sufficient for
    the concrete inputs below, none of the theorems depends on it. *)
Definition sample_runtime : Runtime :=
  {| StringToNumber := fun s =>
       match digits_value 0 s with
       | Some z => if (String.length s <=? 15)%nat then number_of_Z z else nan
       | None => nan
       end |}.

(** ** Notions the statements use *)

(** Whether a property of a record counts as set: present and truthy. *)
Definition field_set (o : jsobj) (k : string) : bool :=
  match props o !! k with
  | Some v => truthy v
  | None => false
  end.

(** The normalized name of a raw mouse event type, as the specification's
    table gives it: five entries, anything else unset. *)
Definition normalized (raw : string) : value :=
  if String.eqb raw "mouseup" then VString "pointerup"
  else if String.eqb raw "mousedown" then VString "pointerdown"
  else if String.eqb raw "mousemove" then VString "pointermove"
  else if String.eqb raw "mouseover" then VString "mouseover"
  else if String.eqb raw "mouseout" then VString "mouseout"
  else VUndefined.

Section Produced.
Context `{RT : Runtime}.

(** The pointer events the module hands out: the result of the constructor,
    of a factory that returned, or of [clone] on any receiver. *)
Inductive produced (h : heap) : PointerEvent.t -> Prop :=
| produced_new t sx sy cx cy :
    produced h (PointerEvent.PointerEvent t sx sy cx cy)
| produced_fromDomEvent t o ox oy e :
    PointerEvent.fromDomEvent h t o ox oy = Normal e -> produced h e
| produced_fromDomMouseEvent d ox oy e :
    PointerEvent.fromDomMouseEvent h d ox oy = Normal e -> produced h e
| produced_fromDomTouch p d ox oy e :
    PointerEvent.fromDomTouch h p d ox oy = Normal e -> produced h e
| produced_clone this t :
    produced h (PointerEvent.clone this t).
End Produced.

(** A store to evaluate the factories on. *)
Definition record (fields : list (string * value)) : jsobj :=
  mkObj (list_to_map fields) [].

Definition sample_heap : heap := fun l =>
  match l with
  | 1%positive =>
      record [("clientX", VNumber 150); ("clientY", VNumber 80)]%string
  | 2%positive =>
      record [("type", VString "mouseup");
              ("clientX", VNumber 150); ("clientY", VNumber 80)]%string
  | 3%positive =>
      record [("type", VString "toString");
              ("clientX", VNumber 150); ("clientY", VNumber 80)]%string
  | 4%positive =>
      record [("identifier", VNumber 40);
              ("clientX", VNumber 10); ("clientY", VNumber 11)]%string
  | 5%positive =>
      record [("identifier", VNumber 41);
              ("clientX", VNumber 20); ("clientY", VNumber 21)]%string
  | 6%positive =>
      record [("identifier", VNumber 42);
              ("clientX", VNumber 30); ("clientY", VNumber 31)]%string
  | 7%positive => mkObj ∅ [VRef 4%positive; VRef 5%positive; VRef 6%positive]
  | 8%positive => record [("touches", VRef 7%positive)]%string
  | 9%positive =>
      record [("identifier", VNumber 43);
              ("clientX", VNumber 50); ("clientY", VNumber 51)]%string
  | _ => empty_obj
  end.

(** The values on which a property read or [ToObject] throws. *)
Definition nullish (v : value) : bool :=
  match v with
  | VUndefined | VNull => true
  | _ => false
  end.

(** The same store with a mouse move, a key press and a record without
    coordinates. *)
Definition sample_heap' : heap := fun l =>
  match l with
  | 10%positive =>
      record [("type", VString "mousemove");
              ("clientX", VNumber 150); ("clientY", VNumber 80)]%string
  | 11%positive =>
      record [("keyCode", VNumber 13);
              ("altKey", VBool true); ("shiftKey", VNumber 1);
              ("ctrlKey", VString "")]%string
  | 12%positive => record [("clientY", VString "80")]%string
  | _ => sample_heap l
  end.

(** * Properties *)

Example number_of_Z_m1 : number_of_Z (-1) = (-1)%float.
Proof. vm_compute. reflexivity. Qed.

Example number_of_nat_samples :
  number_of_nat 0 = 0%float /\ number_of_nat 2 = 2%float
  /\ number_of_nat 11 = 11%float.
Proof. vm_compute. repeat split; reflexivity. Qed.

Example ToInt32_samples :
  ToInt32 5.5%float = 5 /\ ToInt32 (-5.5)%float = -5
  /\ ToInt32 4294967297%float = 1 /\ ToInt32 2147483648%float = -2147483648
  /\ ToInt32 nan = 0 /\ ToInt32 infinity = 0.
Proof. vm_compute. repeat split; reflexivity. Qed.

Example modifier_constants :
  @ALT_KEY sample_runtime = VNumber 1 /\ @CTRL_KEY sample_runtime = VNumber 2
  /\ @META_KEY sample_runtime = VNumber 4 /\ @SHIFT_KEY sample_runtime = VNumber 8.
Proof. vm_compute. repeat split; reflexivity. Qed.


(** ** The modifier mask *)

Section MaskFacts.
Context `{RT : Runtime}.

Lemma modifier_bits :
  ALT_KEY = VNumber 1 /\ CTRL_KEY = VNumber 2
  /\ META_KEY = VNumber 4 /\ SHIFT_KEY = VNumber 8.
Proof. vm_compute. repeat split; reflexivity. Qed.

(** A mask between 0 and 15 is one of sixteen numbers. *)
Lemma mask_cases (m : Z) (P : Z -> Prop) :
  0 <= m <= 15 ->
  P 0 -> P 1 -> P 2 -> P 3 -> P 4 -> P 5 -> P 6 -> P 7 ->
  P 8 -> P 9 -> P 10 -> P 11 -> P 12 -> P 13 -> P 14 -> P 15 ->
  P m.
Proof.
  intros Hm.
  assert (Hc : m = 0 \/ m = 1 \/ m = 2 \/ m = 3 \/ m = 4 \/ m = 5 \/ m = 6
               \/ m = 7 \/ m = 8 \/ m = 9 \/ m = 10 \/ m = 11 \/ m = 12
               \/ m = 13 \/ m = 14 \/ m = 15) by lia.
  intros; repeat (destruct Hc as [-> | Hc]; [assumption |]); subst; assumption.
Qed.

(** The constructor's four tests read the four low bits of the mask. *)
Lemma KeyboardEvent_flags_of_mask (m : Z) (t kc iv : value) :
  0 <= m <= 15 ->
  KeyboardEvent.KeyboardEvent t kc (VNumber (number_of_Z m)) iv
  = KeyboardEvent.mk t kc iv
      (VBool (Z.testbit m 0)) (VBool (Z.testbit m 1))
      (VBool (Z.testbit m 2)) (VBool (Z.testbit m 3)).
Proof.
  intros Hm. pattern m. apply (mask_cases m); [exact Hm | ..];
    vm_compute; reflexivity.
Qed.

(** The mask built from four boolean flags has exactly those bits. *)
Lemma modifiers_of_bools (a c m s : bool) :
  KeyboardEvent.modifiers_of (VBool a) (VBool c) (VBool m) (VBool s)
  = VNumber (number_of_Z
      (Z.b2z a + 2 * Z.b2z c + 4 * Z.b2z m + 8 * Z.b2z s)).
Proof. destruct a, c, m, s; vm_compute; reflexivity. Qed.

(** Whatever the flags hold, [clone] rebuilds each one as its truth value. *)
Lemma KeyboardEvent_clone_flags (e : KeyboardEvent.t) (t : value) :
  KeyboardEvent.clone e t
  = KeyboardEvent.mk
      (js_or t (KeyboardEvent.type e)) (KeyboardEvent.keyCode e)
      (KeyboardEvent.inputValue e)
      (VBool (truthy (KeyboardEvent.altKey e)))
      (VBool (truthy (KeyboardEvent.ctrlKey e)))
      (VBool (truthy (KeyboardEvent.metaKey e)))
      (VBool (truthy (KeyboardEvent.shiftKey e))).
Proof.
  unfold KeyboardEvent.clone, KeyboardEvent.modifiers_of.
  destruct (truthy (KeyboardEvent.altKey e)),
           (truthy (KeyboardEvent.ctrlKey e)),
           (truthy (KeyboardEvent.metaKey e)),
           (truthy (KeyboardEvent.shiftKey e));
    vm_compute; reflexivity.
Qed.

Lemma bits_of_mask (m : Z) :
  0 <= m <= 15 ->
  Z.b2z (Z.testbit m 0) + 2 * Z.b2z (Z.testbit m 1)
  + 4 * Z.b2z (Z.testbit m 2) + 8 * Z.b2z (Z.testbit m 3) = m.
Proof.
  intros Hm. pattern m. apply (mask_cases m); [exact Hm | ..]; reflexivity.
Qed.

(** C5: for every mask [m] between 0 and 15 (and any type, key code, input
    value and clone argument), the clone of the event constructed with [m]
    has four flags that recombine, by the expression [clone] itself uses, to
    the number [m], and each of its flags equals the source's flag, which is
    the corresponding bit of [m]. *)
Theorem KeyboardEvent_clone_mask_roundtrip (m : Z) (t kc iv t' : value) :
  0 <= m <= 15 ->
  KeyboardEvent.modifiers_of
    (KeyboardEvent.altKey
       (KeyboardEvent.clone
          (KeyboardEvent.KeyboardEvent t kc (VNumber (number_of_Z m)) iv) t'))
    (KeyboardEvent.ctrlKey
       (KeyboardEvent.clone
          (KeyboardEvent.KeyboardEvent t kc (VNumber (number_of_Z m)) iv) t'))
    (KeyboardEvent.metaKey
       (KeyboardEvent.clone
          (KeyboardEvent.KeyboardEvent t kc (VNumber (number_of_Z m)) iv) t'))
    (KeyboardEvent.shiftKey
       (KeyboardEvent.clone
          (KeyboardEvent.KeyboardEvent t kc (VNumber (number_of_Z m)) iv) t'))
  = VNumber (number_of_Z m)
  /\ KeyboardEvent.altKey
       (KeyboardEvent.clone
          (KeyboardEvent.KeyboardEvent t kc (VNumber (number_of_Z m)) iv) t')
     = KeyboardEvent.altKey
         (KeyboardEvent.KeyboardEvent t kc (VNumber (number_of_Z m)) iv)
  /\ KeyboardEvent.ctrlKey
       (KeyboardEvent.clone
          (KeyboardEvent.KeyboardEvent t kc (VNumber (number_of_Z m)) iv) t')
     = KeyboardEvent.ctrlKey
         (KeyboardEvent.KeyboardEvent t kc (VNumber (number_of_Z m)) iv)
  /\ KeyboardEvent.metaKey
       (KeyboardEvent.clone
          (KeyboardEvent.KeyboardEvent t kc (VNumber (number_of_Z m)) iv) t')
     = KeyboardEvent.metaKey
         (KeyboardEvent.KeyboardEvent t kc (VNumber (number_of_Z m)) iv)
  /\ KeyboardEvent.shiftKey
       (KeyboardEvent.clone
          (KeyboardEvent.KeyboardEvent t kc (VNumber (number_of_Z m)) iv) t')
     = KeyboardEvent.shiftKey
         (KeyboardEvent.KeyboardEvent t kc (VNumber (number_of_Z m)) iv)
  /\ KeyboardEvent.altKey
       (KeyboardEvent.KeyboardEvent t kc (VNumber (number_of_Z m)) iv)
     = VBool (Z.testbit m 0)
  /\ KeyboardEvent.ctrlKey
       (KeyboardEvent.KeyboardEvent t kc (VNumber (number_of_Z m)) iv)
     = VBool (Z.testbit m 1)
  /\ KeyboardEvent.metaKey
       (KeyboardEvent.KeyboardEvent t kc (VNumber (number_of_Z m)) iv)
     = VBool (Z.testbit m 2)
  /\ KeyboardEvent.shiftKey
       (KeyboardEvent.KeyboardEvent t kc (VNumber (number_of_Z m)) iv)
     = VBool (Z.testbit m 3).
Proof.
  intros Hm.
  rewrite KeyboardEvent_clone_flags, (KeyboardEvent_flags_of_mask m t kc iv Hm).
  cbn [KeyboardEvent.altKey KeyboardEvent.ctrlKey KeyboardEvent.metaKey
       KeyboardEvent.shiftKey truthy].
  rewrite modifiers_of_bools, (bits_of_mask m Hm).
  repeat split; reflexivity.
Qed.

End MaskFacts.

(** The specification's example: mask [ALT_KEY | SHIFT_KEY], that is 9. *)
Lemma KeyboardEvent_clone_mask_roundtrip_witness :
  0 <= 9 <= 15
  /\ KeyboardEvent.clone (RT := sample_runtime)
       (KeyboardEvent.KeyboardEvent (RT := sample_runtime)
          (VString "keydown") (VNumber 13) (VNumber (number_of_Z 9))
          (VString "hello"))
       (VString "keyup")
     = KeyboardEvent.mk (VString "keyup") (VNumber 13) (VString "hello")
         (VBool true) (VBool false) (VBool false) (VBool true)
  /\ KeyboardEvent.modifiers_of (RT := sample_runtime)
       (VBool true) (VBool false) (VBool false) (VBool true)
     = VNumber 9.
Proof.
  assert (Hm : 0 <= 9 <= 15) by lia.
  pose proof (KeyboardEvent_clone_mask_roundtrip (RT := sample_runtime) 9
                (VString "keydown") (VNumber 13) (VString "hello")
                (VString "keyup") Hm) as Hthm.
  split; [exact Hm |].
  split; [vm_compute; reflexivity |].
  destruct Hthm as [Hmask _]. exact Hmask.
Defined.

(** ** KeyboardEvent: construction *)

Section KeyboardFacts.
Context `{RT : Runtime}.

(** C9: with the modifiers argument omitted, the constructor yields the
    four flags false, and the same event as with [NO_MODIFIER]. *)
Theorem KeyboardEvent_no_modifiers (t kc iv : value) :
  KeyboardEvent.KeyboardEvent t kc VUndefined iv
  = KeyboardEvent.mk t kc iv
      (VBool false) (VBool false) (VBool false) (VBool false)
  /\ KeyboardEvent.KeyboardEvent t kc VUndefined iv
     = KeyboardEvent.KeyboardEvent t kc NO_MODIFIER iv.
Proof. split; vm_compute; reflexivity. Qed.

Lemma own_name (k : string) :
  bool_decide (k ∈ ObjectPrototype) = false -> k ∉ ObjectPrototype.
Proof. intros Hk. by apply bool_decide_eq_false_1 in Hk. Qed.

Lemma truthy_Get (o : jsobj) (k : string) :
  k ∉ ObjectPrototype -> truthy (Get o k) = field_set o k.
Proof.
  intros Hk. unfold Get, field_set.
  destruct (props o !! k); [reflexivity |].
  rewrite bool_decide_eq_false_2 by exact Hk. reflexivity.
Qed.

(** C7: for a key-info record (the object at [l]), the event returned by
    [fromDomEvent] has each modifier flag true exactly when the record's
    field of that name is present and truthy, its key code is the record's
    [keyCode], its type is [undefined] whatever the type argument, and its
    input value is the one given. *)
Theorem KeyboardEvent_fromDomEvent_flags (h : heap) (l : loc) (t iv : value) :
  KeyboardEvent.fromDomEvent h t (VRef l) iv
  = Normal (KeyboardEvent.mk VUndefined (Get (h l) "keyCode") iv
              (VBool (field_set (h l) "altKey"))
              (VBool (field_set (h l) "ctrlKey"))
              (VBool (field_set (h l) "metaKey"))
              (VBool (field_set (h l) "shiftKey"))).
Proof.
  rewrite <- !truthy_Get by (apply own_name; vm_compute; reflexivity).
  unfold KeyboardEvent.fromDomEvent, KeyboardEvent.modifiers_of.
  cbn [GetV mbind completion_bind mret completion_ret].
  destruct (truthy (Get (h l) "altKey")), (truthy (Get (h l) "ctrlKey")),
           (truthy (Get (h l) "metaKey")), (truthy (Get (h l) "shiftKey"));
    vm_compute; reflexivity.
Qed.

End KeyboardFacts.


(** ** PointerEvent: the factories *)

Ltac bind_inv H :=
  repeat match type of H with
         | mbind _ ?c = Normal _ =>
             let E := fresh "E" in
             destruct c eqn:E; cbn [mbind completion_bind] in H;
             [| discriminate H]
         end;
  cbn [mret completion_ret] in H.

Section PointerFacts.
Context `{RT : Runtime}.

(** C8: for an offset record (the object at [l]) whose [clientX] and
    [clientY] are the numbers [cx] and [cy], and a stage origin [(ox, oy)],
    [fromDomEvent] returns an event with [stageX = cx - ox],
    [stageY = cy - oy], [clientX = cx], [clientY = cy], [x] equal to
    [stageX] and [y] equal to [stageY]. *)
Theorem PointerEvent_fromDomEvent_coordinates
    (h : heap) (l : loc) (t : value) (cx cy ox oy : float) :
  props (h l) !! "clientX"%string = Some (VNumber cx) ->
  props (h l) !! "clientY"%string = Some (VNumber cy) ->
  exists e,
    PointerEvent.fromDomEvent h t (VRef l) (VNumber ox) (VNumber oy) = Normal e
    /\ PointerEvent.stageX e = VNumber (PrimFloat.sub cx ox)
    /\ PointerEvent.stageY e = VNumber (PrimFloat.sub cy oy)
    /\ PointerEvent.clientX e = VNumber cx
    /\ PointerEvent.clientY e = VNumber cy
    /\ PointerEvent.x e = PointerEvent.stageX e
    /\ PointerEvent.y e = PointerEvent.stageY e.
Proof.
  intros Hx Hy. eexists. split.
  - unfold PointerEvent.fromDomEvent, GetV, Get. rewrite Hx, Hy.
    cbn [mbind completion_bind mret completion_ret]. reflexivity.
  - cbn. repeat split; reflexivity.
Qed.

(** C1, as the code has it: for every type argument [t], every offset
    record and every stage origin, [fromDomEvent] returns an event whose
    type is [undefined]; the type argument is not used. *)
Theorem PointerEvent_fromDomEvent_type_unset
    (h : heap) (l : loc) (t ox oy : value) :
  exists e,
    PointerEvent.fromDomEvent h t (VRef l) ox oy = Normal e
    /\ PointerEvent.type e = VUndefined.
Proof.
  eexists. split.
  - unfold PointerEvent.fromDomEvent.
    cbn [GetV mbind completion_bind mret completion_ret]. reflexivity.
  - reflexivity.
Qed.

Lemma Get_eventTypeMap (raw : string) :
  raw ∉ ObjectPrototype -> Get eventTypeMap raw = normalized raw.
Proof.
  intros Hown. unfold normalized.
  destruct (String.eqb_spec raw "mouseup") as [-> | H1]; [reflexivity |].
  destruct (String.eqb_spec raw "mousedown") as [-> | H2]; [reflexivity |].
  destruct (String.eqb_spec raw "mousemove") as [-> | H3]; [reflexivity |].
  destruct (String.eqb_spec raw "mouseover") as [-> | H4]; [reflexivity |].
  destruct (String.eqb_spec raw "mouseout") as [-> | H5]; [reflexivity |].
  unfold Get, eventTypeMap. cbn [props].
  rewrite (not_elem_of_list_to_map_1 _ raw).
  - rewrite bool_decide_eq_false_2 by exact Hown. reflexivity.
  - cbn. rewrite !not_elem_of_cons. repeat split; try assumption.
    apply not_elem_of_nil.
Qed.

(** C4, as the code has it: for a mouse event record (the object at [l])
    whose raw type is the string [raw], not the name of a member inherited
    from [Object.prototype], [fromDomMouseEvent] returns, without an error,
    an event whose type is the table's image of [raw]: "pointerup" for
    "mouseup", "pointerdown" for "mousedown", "pointermove" for "mousemove",
    "mouseover" and "mouseout" for themselves, and [undefined] for any other
    such [raw]. *)
Theorem PointerEvent_fromDomMouseEvent_type
    (h : heap) (l : loc) (raw : string) (ox oy : value) :
  props (h l) !! "type"%string = Some (VString raw) ->
  raw ∉ ObjectPrototype ->
  exists e,
    PointerEvent.fromDomMouseEvent h (VRef l) ox oy = Normal e
    /\ PointerEvent.type e = normalized raw.
Proof.
  intros Hty Hown. eexists. split.
  - unfold PointerEvent.fromDomMouseEvent.
    cbn [GetV mbind completion_bind mret completion_ret]. reflexivity.
  - cbn [PointerEvent.PointerEvent PointerEvent.type].
    unfold Get at 1. rewrite Hty. cbn [GetKeyed].
    apply Get_eventTypeMap, Hown.
Qed.

End PointerFacts.

(** The specification's example: offsets (150, 80), stage origin (50, 20). *)
Lemma PointerEvent_fromDomEvent_coordinates_witness :
  exists e,
    PointerEvent.fromDomEvent (RT := sample_runtime) sample_heap VUndefined
      (VRef 1%positive) (VNumber 50) (VNumber 20) = Normal e
    /\ PointerEvent.stageX e = VNumber 100
    /\ PointerEvent.stageY e = VNumber 60
    /\ PointerEvent.clientX e = VNumber 150
    /\ PointerEvent.clientY e = VNumber 80
    /\ PointerEvent.x e = PointerEvent.stageX e
    /\ PointerEvent.y e = PointerEvent.stageY e.
Proof.
  exact (PointerEvent_fromDomEvent_coordinates (RT := sample_runtime)
           sample_heap 1%positive VUndefined 150 80 50 20
           eq_refl eq_refl).
Defined.

(** C1 fails as stated: given the type "pointerdown", the event returned
    does not have that type. *)
Lemma PointerEvent_fromDomEvent_type_dropped :
  exists e,
    PointerEvent.fromDomEvent (RT := sample_runtime) sample_heap
      (VString "pointerdown") (VRef 1%positive) (VNumber 50) (VNumber 20)
    = Normal e
    /\ PointerEvent.type e = VUndefined
    /\ PointerEvent.type e <> VString "pointerdown".
Proof.
  eexists. split; [vm_compute; reflexivity |].
  split; [reflexivity | discriminate].
Qed.

Lemma PointerEvent_fromDomMouseEvent_type_witness :
  exists e,
    PointerEvent.fromDomMouseEvent (RT := sample_runtime) sample_heap
      (VRef 2%positive) (VNumber 50) (VNumber 20) = Normal e
    /\ PointerEvent.type e = VString "pointerup".
Proof.
  refine (PointerEvent_fromDomMouseEvent_type (RT := sample_runtime)
            sample_heap 2%positive "mouseup" (VNumber 50) (VNumber 20)
            eq_refl _).
  apply own_name. vm_compute. reflexivity.
Defined.

(** C4 fails as stated: "toString" is none of the five keys of the table,
    and a mouse event of that raw type gets a type that is not [undefined]
    but the member of that name which the table inherits. *)
Lemma PointerEvent_fromDomMouseEvent_inherited :
  normalized "toString" = VUndefined
  /\ exists e,
       PointerEvent.fromDomMouseEvent (RT := sample_runtime) sample_heap
         (VRef 3%positive) (VNumber 50) (VNumber 20) = Normal e
       /\ PointerEvent.type e = VNative "toString"
       /\ PointerEvent.type e <> VUndefined.
Proof.
  split; [reflexivity |].
  eexists. split; [vm_compute; reflexivity |].
  split; [reflexivity | discriminate].
Qed.

Example normalized_table :
  normalized "mouseup" = VString "pointerup"
  /\ normalized "mousedown" = VString "pointerdown"
  /\ normalized "mousemove" = VString "pointermove"
  /\ normalized "mouseover" = VString "mouseover"
  /\ normalized "mouseout" = VString "mouseout"
  /\ normalized "click" = VUndefined.
Proof. repeat split; reflexivity. Qed.

(** ** PointerEvent: the index of a touch *)

Lemma strict_eq_ref (e : value) (l : loc) :
  strict_eq e (VRef l) = true <-> e = VRef l.
Proof.
  destruct e; cbn; try (split; [discriminate | congruence]).
  rewrite Pos.eqb_eq. split; congruence.
Qed.

Lemma indexOf_from_first (l : loc) (es : list value) :
  forall (k0 i : nat),
    es !! i = Some (VRef l) ->
    (forall j, (j < i)%nat -> es !! j <> Some (VRef l)) ->
    indexOf_from k0 es (VRef l) = Some (k0 + i)%nat.
Proof.
  induction es as [| e es IH]; intros k0 i Hi Hfirst; [discriminate Hi |].
  cbn [indexOf_from]. destruct i as [| i].
  - cbn in Hi. injection Hi as ->.
    rewrite (proj2 (strict_eq_ref _ _) eq_refl). f_equal. lia.
  - destruct (strict_eq e (VRef l)) eqn:Heq.
    + apply strict_eq_ref in Heq. subst e.
      exfalso. apply (Hfirst 0%nat); [lia | reflexivity].
    + rewrite (IH (S k0) i); [f_equal; lia | exact Hi |].
      intros j Hj. apply (Hfirst (S j)). lia.
Qed.

Lemma indexOf_from_absent (l : loc) (es : list value) :
  forall k0, VRef l ∉ es -> indexOf_from k0 es (VRef l) = None.
Proof.
  induction es as [| e es IH]; intros k0 Hnot; [reflexivity |].
  apply not_elem_of_cons in Hnot as [Hne Hnot].
  cbn [indexOf_from]. destruct (strict_eq e (VRef l)) eqn:Heq.
  - apply strict_eq_ref in Heq. congruence.
  - apply IH, Hnot.
Qed.

Section TouchFacts.
Context `{RT : Runtime}.

(** C3: for a touch point (the object at [l]) and a parent touch event (the
    object at [le]) whose [touches] is the collection at [lt],
    [fromDomTouch] returns an event, without an error; its [touchId] is the
    touch point's [identifier]; its [touchIndex] is the zero-based position
    at which the collection first holds that very object, and [-1] when the
    collection does not hold it. *)
Theorem PointerEvent_fromDomTouch_touchIndex
    (h : heap) (l le lt : loc) (ox oy : value) :
  Get (h le) "touches" = VRef lt ->
  exists ev,
    PointerEvent.fromDomTouch h (VRef l) (VRef le) ox oy = Normal ev
    /\ PointerEvent.touchId ev = Get (h l) "identifier"
    /\ (forall i : nat,
          elems (h lt) !! i = Some (VRef l) ->
          (forall j : nat, (j < i)%nat -> elems (h lt) !! j <> Some (VRef l)) ->
          PointerEvent.touchIndex ev = VNumber (number_of_nat i))
    /\ (VRef l ∉ elems (h lt) ->
        PointerEvent.touchIndex ev = VNumber (-1)%float).
Proof.
  intros Htouches. eexists. split.
  - unfold PointerEvent.fromDomTouch, indexOf_call.
    cbn [GetV mbind completion_bind mret completion_ret].
    rewrite Htouches.
    cbn [ToObject_elems mbind completion_bind mret completion_ret].
    reflexivity.
  - cbn [PointerEvent.set_touchIndex PointerEvent.set_touchId
         PointerEvent.touchId PointerEvent.touchIndex
         PointerEvent.PointerEvent].
    split; [reflexivity |]. split.
    + intros i Hi Hfirst.
      rewrite (indexOf_from_first l _ 0%nat i Hi Hfirst). reflexivity.
    + intros Hnot. rewrite (indexOf_from_absent l _ 0%nat Hnot). reflexivity.
Qed.

End TouchFacts.

(** The third touch of three has index 2; a touch that the collection does
    not hold has index -1. *)
Lemma PointerEvent_fromDomTouch_touchIndex_witness :
  (exists ev,
     PointerEvent.fromDomTouch (RT := sample_runtime) sample_heap
       (VRef 6%positive) (VRef 8%positive) (VNumber 50) (VNumber 20)
     = Normal ev
     /\ PointerEvent.touchId ev = VNumber 42
     /\ PointerEvent.touchIndex ev = VNumber 2)
  /\ (exists ev,
        PointerEvent.fromDomTouch (RT := sample_runtime) sample_heap
          (VRef 9%positive) (VRef 8%positive) (VNumber 50) (VNumber 20)
        = Normal ev
        /\ PointerEvent.touchId ev = VNumber 43
        /\ PointerEvent.touchIndex ev = VNumber (-1)%float).
Proof.
  split.
  - destruct (PointerEvent_fromDomTouch_touchIndex (RT := sample_runtime)
                sample_heap 6%positive 8%positive 7%positive
                (VNumber 50) (VNumber 20) eq_refl)
      as (ev & Hev & Hid & Hpos & _).
    exists ev. split; [exact Hev |]. split; [exact Hid |].
    apply (Hpos 2%nat); [reflexivity |].
    intros [| [| j]] Hj; [discriminate | discriminate | lia].
  - destruct (PointerEvent_fromDomTouch_touchIndex (RT := sample_runtime)
                sample_heap 9%positive 8%positive 7%positive
                (VNumber 50) (VNumber 20) eq_refl)
      as (ev & Hev & Hid & _ & Habsent).
    exists ev. split; [exact Hev |]. split; [exact Hid |].
    apply Habsent. cbn. rewrite !not_elem_of_cons.
    repeat split; try discriminate. apply not_elem_of_nil.
Defined.

(** ** PointerEvent: the two names of the stage position *)

Section InvariantFacts.
Context `{RT : Runtime}.

(** C2: every pointer event that the constructor, [fromDomEvent],
    [fromDomMouseEvent], [fromDomTouch] or [clone] produces holds the same
    value in [stageX] and [x], and the same value in [stageY] and [y]. *)
Theorem PointerEvent_stage_aliases (h : heap) (e : PointerEvent.t) :
  produced h e ->
  PointerEvent.stageX e = PointerEvent.x e
  /\ PointerEvent.stageY e = PointerEvent.y e.
Proof.
  intros Hp. destruct Hp as [t sx sy cx cy | t o ox oy e He | d ox oy e He
                            | p d ox oy e He | this t].
  - split; reflexivity.
  - unfold PointerEvent.fromDomEvent in He. bind_inv He.
    injection He as <-. split; reflexivity.
  - unfold PointerEvent.fromDomMouseEvent in He. bind_inv He.
    injection He as <-. split; reflexivity.
  - unfold PointerEvent.fromDomTouch in He. bind_inv He.
    injection He as <-. split; reflexivity.
  - split; reflexivity.
Qed.

End InvariantFacts.

(** The clone of the event of a touch. *)
Lemma PointerEvent_stage_aliases_witness :
  exists e,
    PointerEvent.fromDomTouch (RT := sample_runtime) sample_heap
      (VRef 5%positive) (VRef 8%positive) (VNumber 50) (VNumber 20)
    = Normal e
    /\ PointerEvent.stageX (PointerEvent.clone e (VString "pointerdown"))
       = VNumber (-30)%float
    /\ PointerEvent.stageX (PointerEvent.clone e (VString "pointerdown"))
       = PointerEvent.x (PointerEvent.clone e (VString "pointerdown"))
    /\ PointerEvent.stageY e = PointerEvent.y e.
Proof.
  eexists. split; [vm_compute; reflexivity |].
  split; [vm_compute; reflexivity |].
  split.
  - apply (PointerEvent_stage_aliases (RT := sample_runtime) sample_heap).
    apply produced_clone.
  - apply (PointerEvent_stage_aliases (RT := sample_runtime) sample_heap).
    apply (produced_fromDomTouch sample_heap (VRef 5%positive)
             (VRef 8%positive) (VNumber 50) (VNumber 20)).
    vm_compute. reflexivity.
Defined.

(** ** Cloning *)

(** C6, as the code has it: for every pointer event [p] whose [stageX] is
    its [x] and whose [stageY] is its [y], whatever its delta, diff, button
    and touch fields hold, [clone] without an argument returns an event
    equal to [p] in every field, and [clone] with a truthy type [t] returns
    an event of type [t] whose every other field is that of [p]. *)
Theorem PointerEvent_clone_frame (p : PointerEvent.t) (t : value) :
  PointerEvent.stageX p = PointerEvent.x p ->
  PointerEvent.stageY p = PointerEvent.y p ->
  truthy t = true ->
  PointerEvent.clone p VUndefined = p
  /\ PointerEvent.clone p t
     = PointerEvent.mk t
         (PointerEvent.stageX p) (PointerEvent.x p)
         (PointerEvent.stageY p) (PointerEvent.y p)
         (PointerEvent.clientX p) (PointerEvent.clientY p)
         (PointerEvent.deltaX p) (PointerEvent.deltaY p)
         (PointerEvent.diffX p) (PointerEvent.diffY p)
         (PointerEvent.isLeft p) (PointerEvent.isRight p)
         (PointerEvent.isMiddle p)
         (PointerEvent.touchId p) (PointerEvent.touchIndex p).
Proof.
  intros Hx Hy Ht. destruct p. cbn in Hx, Hy. subst.
  unfold PointerEvent.clone, js_or. rewrite Ht. split; reflexivity.
Qed.

(** A move event with populated delta and button fields, retyped. *)
Lemma PointerEvent_clone_frame_witness :
  PointerEvent.clone
    (PointerEvent.set_isLeft (VBool true)
       (PointerEvent.set_deltaX (VNumber 5)
          (PointerEvent.PointerEvent (VString "pointermove")
             (VNumber 100) (VNumber 60) (VNumber 150) (VNumber 80))))
    (VString "dragend")
  = PointerEvent.mk (VString "dragend")
      (VNumber 100) (VNumber 100) (VNumber 60) (VNumber 60)
      (VNumber 150) (VNumber 80)
      (VNumber 5) VUndefined VUndefined VUndefined
      (VBool true) VUndefined VUndefined VUndefined VUndefined.
Proof.
  exact (proj2 (PointerEvent_clone_frame
                  (PointerEvent.set_isLeft (VBool true)
                     (PointerEvent.set_deltaX (VNumber 5)
                        (PointerEvent.PointerEvent (VString "pointermove")
                           (VNumber 100) (VNumber 60)
                           (VNumber 150) (VNumber 80))))
                  (VString "dragend") eq_refl eq_refl eq_refl)).
Defined.

(** C6 fails as stated: the empty string is a type argument, and the clone
    made with it keeps the source's type instead of taking the argument. *)
Lemma PointerEvent_clone_empty_type :
  PointerEvent.type
    (PointerEvent.clone
       (PointerEvent.PointerEvent (VString "pointermove")
          (VNumber 100) (VNumber 60) (VNumber 150) (VNumber 80))
       (VString ""))
  = VString "pointermove"
  /\ VString "pointermove" <> VString "".
Proof. split; [reflexivity | discriminate]. Qed.

Section CloneFacts.
Context `{RT : Runtime}.

(** C10: for every keyboard event and every pointer event, [clone] called
    with a falsy type argument, such as the empty string, returns an event
    whose type is the source's type and not the argument. *)
Theorem clone_falsy_type
    (k : KeyboardEvent.t) (p : PointerEvent.t) (t : value) :
  truthy t = false ->
  KeyboardEvent.type (KeyboardEvent.clone k t) = KeyboardEvent.type k
  /\ PointerEvent.type (PointerEvent.clone p t) = PointerEvent.type p.
Proof.
  intros Ht. split.
  - rewrite KeyboardEvent_clone_flags. cbn [KeyboardEvent.type].
    unfold js_or. rewrite Ht. reflexivity.
  - unfold PointerEvent.clone, js_or. rewrite Ht. reflexivity.
Qed.

End CloneFacts.

Lemma clone_falsy_type_witness :
  KeyboardEvent.type
    (KeyboardEvent.clone (RT := sample_runtime)
       (KeyboardEvent.KeyboardEvent (RT := sample_runtime)
          (VString "keydown") (VNumber 13) (VNumber 9) (VString "hello"))
       (VString ""))
  = VString "keydown"
  /\ PointerEvent.type
       (PointerEvent.clone
          (PointerEvent.PointerEvent (VString "pointermove")
             (VNumber 100) (VNumber 60) (VNumber 150) (VNumber 80))
          (VString ""))
     = VString "pointermove".
Proof.
  exact (clone_falsy_type (RT := sample_runtime)
           (KeyboardEvent.KeyboardEvent (RT := sample_runtime)
              (VString "keydown") (VNumber 13) (VNumber 9) (VString "hello"))
           (PointerEvent.PointerEvent (VString "pointermove")
              (VNumber 100) (VNumber 60) (VNumber 150) (VNumber 80))
           (VString "") eq_refl).
Defined.

(** * Further properties *)

(** ** Where the factories throw *)

Section ThrowFacts.
Context `{RT : Runtime}.

(** X1: [KeyboardEvent.fromDomEvent] throws exactly when its key-info
    argument is [undefined] or [null]; on every other value it returns. *)
Theorem KeyboardEvent_fromDomEvent_throws (h : heap) (t keys iv : value) :
  KeyboardEvent.fromDomEvent h t keys iv = Throw TypeError
  <-> nullish keys = true.
Proof.
  unfold KeyboardEvent.fromDomEvent.
  destruct keys; cbn [nullish GetV mbind completion_bind mret completion_ret];
    split; intros Hk; first [reflexivity | discriminate Hk].
Qed.



End ThrowFacts.

(** A mouse event has no [touches]: as the parent of a touch it throws. *)
Example PointerEvent_fromDomTouch_mouse_parent :
  PointerEvent.fromDomTouch (RT := sample_runtime) sample_heap
    (VRef 4%positive) (VRef 2%positive) (VNumber 50) (VNumber 20)
  = Throw TypeError.
Proof. vm_compute. reflexivity. Qed.


(** ** The mask, for every value *)

Lemma land_pow2 (z i : Z) :
  0 <= i -> Z.land z (2 ^ i) = if Z.testbit z i then 2 ^ i else 0.
Proof.
  intros Hi. apply Z.bits_inj'. intros n Hn.
  rewrite Z.land_spec, Z.pow2_bits_eqb by exact Hi.
  destruct (Z.eqb_spec i n) as [-> | Hne].
  - destruct (Z.testbit z n).
    + rewrite Z.pow2_bits_true by exact Hn. reflexivity.
    + rewrite Z.bits_0. reflexivity.
  - rewrite Bool.andb_false_r. destruct (Z.testbit z i).
    + rewrite Z.pow2_bits_false by congruence. reflexivity.
    + rewrite Z.bits_0. reflexivity.
Qed.

Section AnyMaskFacts.
Context `{RT : Runtime}.

(** One test of the constructor, [!!(modifiers & (1 << i))]. *)
Lemma flag_test (m : value) (i : Z) :
  0 <= i <= 3 ->
  js_notnot (js_bitand m (VNumber (number_of_Z (2 ^ i))))
  = VBool (Z.testbit (ToInt32 (ToNumber m)) i).
Proof.
  intros Hi. unfold js_notnot, js_bitand. f_equal.
  assert (Hc : i = 0 \/ i = 1 \/ i = 2 \/ i = 3) by lia.
  destruct Hc as [-> | [-> | [-> | ->]]].
  - change (ToInt32 (ToNumber (VNumber (number_of_Z (2 ^ 0))))) with (2 ^ 0).
    rewrite land_pow2 by lia.
    destruct (Z.testbit _ 0); vm_compute; reflexivity.
  - change (ToInt32 (ToNumber (VNumber (number_of_Z (2 ^ 1))))) with (2 ^ 1).
    rewrite land_pow2 by lia.
    destruct (Z.testbit _ 1); vm_compute; reflexivity.
  - change (ToInt32 (ToNumber (VNumber (number_of_Z (2 ^ 2))))) with (2 ^ 2).
    rewrite land_pow2 by lia.
    destruct (Z.testbit _ 2); vm_compute; reflexivity.
  - change (ToInt32 (ToNumber (VNumber (number_of_Z (2 ^ 3))))) with (2 ^ 3).
    rewrite land_pow2 by lia.
    destruct (Z.testbit _ 3); vm_compute; reflexivity.
Qed.

Lemma KeyboardEvent_flags_of_value (t kc m iv : value) :
  KeyboardEvent.KeyboardEvent t kc m iv
  = KeyboardEvent.mk t kc iv
      (VBool (Z.testbit (ToInt32 (ToNumber m)) 0))
      (VBool (Z.testbit (ToInt32 (ToNumber m)) 1))
      (VBool (Z.testbit (ToInt32 (ToNumber m)) 2))
      (VBool (Z.testbit (ToInt32 (ToNumber m)) 3)).
Proof.
  unfold KeyboardEvent.KeyboardEvent.
  destruct modifier_bits as (-> & -> & -> & ->).
  rewrite <- (flag_test m 0), <- (flag_test m 1), <- (flag_test m 2),
          <- (flag_test m 3) by lia.
  reflexivity.
Qed.


(** X5: the clone of a constructed keyboard event is the event constructed
    from the same arguments, with the type [type' || type]; this holds for
    every modifiers argument, so that [clone()] of a constructed event is
    that event. *)
Theorem KeyboardEvent_clone_constructed (t kc m iv t' : value) :
  KeyboardEvent.clone (KeyboardEvent.KeyboardEvent t kc m iv) t'
  = KeyboardEvent.KeyboardEvent (js_or t' t) kc m iv
  /\ KeyboardEvent.clone (KeyboardEvent.KeyboardEvent t kc m iv) VUndefined
     = KeyboardEvent.KeyboardEvent t kc m iv.
Proof.
  rewrite !KeyboardEvent_clone_flags, !KeyboardEvent_flags_of_value.
  split; reflexivity.
Qed.

(** X6: cloning a clone of any keyboard event, whatever its flags hold, is
    cloning the event once with the type [t' || t]; a second [clone()]
    changes nothing. *)
Theorem KeyboardEvent_clone_clone (e : KeyboardEvent.t) (t t' : value) :
  KeyboardEvent.clone (KeyboardEvent.clone e t) t'
  = KeyboardEvent.clone e (js_or t' t)
  /\ KeyboardEvent.clone (KeyboardEvent.clone e t) VUndefined
     = KeyboardEvent.clone e t.
Proof.
  rewrite !KeyboardEvent_clone_flags.
  cbn [KeyboardEvent.type KeyboardEvent.keyCode KeyboardEvent.inputValue
       KeyboardEvent.altKey KeyboardEvent.ctrlKey KeyboardEvent.metaKey
       KeyboardEvent.shiftKey truthy].
  split; [| reflexivity].
  f_equal. unfold js_or.
  destruct (truthy t') eqn:Ht'; [rewrite Ht'; reflexivity |].
  destruct (truthy t) eqn:Ht; rewrite ?Ht; reflexivity.
Qed.

End AnyMaskFacts.

(** ** Cloning pointer events *)

(** X7: cloning a clone of any pointer event is cloning the event once with
    the type [t' || t]; a second [clone()] changes nothing. *)
Theorem PointerEvent_clone_clone (p : PointerEvent.t) (t t' : value) :
  PointerEvent.clone (PointerEvent.clone p t) t'
  = PointerEvent.clone p (js_or t' t)
  /\ PointerEvent.clone (PointerEvent.clone p t) VUndefined
     = PointerEvent.clone p t.
Proof.
  split; [| reflexivity].
  unfold PointerEvent.clone. cbn. f_equal. unfold js_or.
  destruct (truthy t') eqn:Ht'; [rewrite Ht'; reflexivity |].
  destruct (truthy t) eqn:Ht; rewrite ?Ht; reflexivity.
Qed.

(** X8: [clone()] returns an event equal to its source exactly when the
    source's [stageX] is its [x] and its [stageY] is its [y] (the clone
    takes both names of the stage position from [x] and [y]). *)
Theorem PointerEvent_clone_identity (p : PointerEvent.t) :
  PointerEvent.clone p VUndefined = p
  <-> PointerEvent.stageX p = PointerEvent.x p
      /\ PointerEvent.stageY p = PointerEvent.y p.
Proof.
  split.
  - intros Hc.
    pose proof (f_equal PointerEvent.stageX Hc) as Hx.
    pose proof (f_equal PointerEvent.stageY Hc) as Hy.
    cbn in Hx, Hy. split; congruence.
  - intros [Hx Hy]. destruct p. cbn in Hx, Hy. subst. reflexivity.
Qed.


(** ** The factories against one another *)

Section FactoryFacts.
Context `{RT : Runtime}.


(** X10: when [fromDomTouch] returns, the event is the one [fromDomEvent]
    returns for the touch point and the same stage origin, with [touchId]
    and [touchIndex] assigned and nothing else changed. *)
Theorem PointerEvent_fromDomTouch_of_generic
    (h : heap) (t p d ox oy : value) (ev : PointerEvent.t) :
  PointerEvent.fromDomTouch h p d ox oy = Normal ev ->
  exists e,
    PointerEvent.fromDomEvent h t p ox oy = Normal e
    /\ ev = PointerEvent.set_touchIndex (PointerEvent.touchIndex ev)
              (PointerEvent.set_touchId (PointerEvent.touchId ev) e).
Proof.
  intros Hev. unfold PointerEvent.fromDomTouch in Hev.
  unfold PointerEvent.fromDomEvent. bind_inv Hev. injection Hev as <-.
  eexists. split; [cbn [mbind completion_bind mret completion_ret] |];
    reflexivity.
Qed.

(** X11: retyping what a factory returned. For an event [e] returned by
    [fromDomEvent] or by [fromDomMouseEvent], [clone] with a truthy type [t]
    is the event constructed with [t] and [e]'s stage and client
    positions. *)
Theorem PointerEvent_factory_then_clone
    (h : heap) (ty d ox oy t : value) (e : PointerEvent.t) :
  PointerEvent.fromDomEvent h ty d ox oy = Normal e
  \/ PointerEvent.fromDomMouseEvent h d ox oy = Normal e ->
  truthy t = true ->
  PointerEvent.clone e t
  = PointerEvent.PointerEvent t
      (PointerEvent.stageX e) (PointerEvent.stageY e)
      (PointerEvent.clientX e) (PointerEvent.clientY e).
Proof.
  intros [He | He] Ht.
  - unfold PointerEvent.fromDomEvent in He. bind_inv He. injection He as <-.
    unfold PointerEvent.clone, js_or. rewrite Ht. reflexivity.
  - unfold PointerEvent.fromDomMouseEvent in He. bind_inv He.
    injection He as <-.
    unfold PointerEvent.clone, js_or. rewrite Ht. reflexivity.
Qed.

(** X12: retyping what [KeyboardEvent.fromDomEvent] returned. [clone] with
    a truthy type [t] changes the type to [t] and nothing else: key code,
    input value and the four flags are those of the event returned. *)
Theorem KeyboardEvent_factory_then_clone
    (h : heap) (ty keys iv t : value) (e : KeyboardEvent.t) :
  KeyboardEvent.fromDomEvent h ty keys iv = Normal e ->
  truthy t = true ->
  KeyboardEvent.clone e t
  = KeyboardEvent.mk t (KeyboardEvent.keyCode e) (KeyboardEvent.inputValue e)
      (KeyboardEvent.altKey e) (KeyboardEvent.ctrlKey e)
      (KeyboardEvent.metaKey e) (KeyboardEvent.shiftKey e).
Proof.
  intros He Ht. unfold KeyboardEvent.fromDomEvent in He. bind_inv He.
  injection He as <-.
  rewrite KeyboardEvent_clone_flags, KeyboardEvent_flags_of_value.
  cbn [KeyboardEvent.type KeyboardEvent.keyCode KeyboardEvent.inputValue
       KeyboardEvent.altKey KeyboardEvent.ctrlKey KeyboardEvent.metaKey
       KeyboardEvent.shiftKey truthy].
  unfold js_or. rewrite Ht. reflexivity.
Qed.

Lemma Get_eventTypeMap_cases (raw : string) :
  Get eventTypeMap raw = normalized raw
  \/ (raw ∈ ObjectPrototype /\ Get eventTypeMap raw = VNative raw).
Proof.
  destruct (decide (raw ∈ ObjectPrototype)) as [Hin | Hout].
  - right. split; [exact Hin |].
    unfold Get, eventTypeMap. cbn [props].
    rewrite (not_elem_of_list_to_map_1 _ raw).
    + rewrite bool_decide_eq_true_2 by exact Hin. reflexivity.
    + cbn. intros Hkey.
      repeat (apply elem_of_cons in Hkey as [-> | Hkey];
              [revert Hin; apply own_name; vm_compute; reflexivity |]).
      apply elem_of_nil in Hkey. exact Hkey.
  - left. apply Get_eventTypeMap, Hout.
Qed.

(** X13: the type of an event returned by [fromDomMouseEvent] is
    [undefined], one of the five normalized names, or a member inherited
    from [Object.prototype]; it is never one of the raw names "mouseup",
    "mousedown" and "mousemove". *)
Theorem PointerEvent_fromDomMouseEvent_type_range
    (h : heap) (d ox oy : value) (e : PointerEvent.t) :
  PointerEvent.fromDomMouseEvent h d ox oy = Normal e ->
  (PointerEvent.type e
   ∈ [ VUndefined; VString "pointerup"; VString "pointerdown";
       VString "pointermove"; VString "mouseover"; VString "mouseout" ]
   \/ exists k, k ∈ ObjectPrototype /\ PointerEvent.type e = VNative k)
  /\ PointerEvent.type e <> VString "mouseup"
  /\ PointerEvent.type e <> VString "mousedown"
  /\ PointerEvent.type e <> VString "mousemove".
Proof.
  intros He. unfold PointerEvent.fromDomMouseEvent in He. bind_inv He.
  injection He as <-. cbn [PointerEvent.PointerEvent PointerEvent.type].
  assert (Hrange :
            GetKeyed eventTypeMap a1
            ∈ [ VUndefined; VString "pointerup"; VString "pointerdown";
                VString "pointermove"; VString "mouseover";
                VString "mouseout" ]
            \/ exists k, k ∈ ObjectPrototype
                         /\ GetKeyed eventTypeMap a1 = VNative k).
  { destruct a1 as [| | b | n | s | l | name]; cbn [GetKeyed];
      try (left; apply list_elem_of_here).
    destruct (Get_eventTypeMap_cases s) as [-> | [Hin ->]].
    - left. unfold normalized.
      repeat (match goal with
              | |- context [String.eqb ?a ?b] => destruct (String.eqb a b)
              end; [set_solver |]).
      set_solver.
    - right. exists s. split; [exact Hin | reflexivity]. }
  split; [exact Hrange |].
  destruct Hrange as [Hin | (k & _ & ->)].
  - repeat split; intros Heq; rewrite Heq in Hin;
      repeat (apply elem_of_cons in Hin as [Hin | Hin]; [discriminate Hin |]);
      apply elem_of_nil in Hin; exact Hin.
  - repeat split; discriminate.
Qed.

End FactoryFacts.

Lemma PointerEvent_fromDomTouch_of_generic_witness :
  exists e,
    PointerEvent.fromDomEvent (RT := sample_runtime) sample_heap
      (VString "touchstart") (VRef 5%positive) (VNumber 50) (VNumber 20)
    = Normal e
    /\ PointerEvent.mk VUndefined
         (VNumber (-30)%float) (VNumber (-30)%float)
         (VNumber 1) (VNumber 1) (VNumber 20) (VNumber 21)
         VUndefined VUndefined VUndefined VUndefined
         VUndefined VUndefined VUndefined (VNumber 41) (VNumber 1)
       = PointerEvent.set_touchIndex (VNumber 1)
           (PointerEvent.set_touchId (VNumber 41) e).
Proof.
  exact (PointerEvent_fromDomTouch_of_generic (RT := sample_runtime)
           sample_heap (VString "touchstart") (VRef 5%positive)
           (VRef 8%positive) (VNumber 50) (VNumber 20) _ eq_refl).
Defined.

Lemma PointerEvent_factory_then_clone_witness :
  PointerEvent.clone
    (PointerEvent.PointerEvent (VString "pointermove")
       (VNumber 100) (VNumber 60) (VNumber 150) (VNumber 80))
    (VString "drag")
  = PointerEvent.PointerEvent (VString "drag")
      (VNumber 100) (VNumber 60) (VNumber 150) (VNumber 80).
Proof.
  refine (PointerEvent_factory_then_clone (RT := sample_runtime)
            sample_heap' VUndefined
            (VRef 10%positive) (VNumber 50) (VNumber 20) (VString "drag")
            (PointerEvent.PointerEvent (VString "pointermove")
               (VNumber 100) (VNumber 60) (VNumber 150) (VNumber 80))
            _ eq_refl).
  right. vm_compute. reflexivity.
Defined.

Lemma KeyboardEvent_factory_then_clone_witness :
  KeyboardEvent.clone (RT := sample_runtime)
    (KeyboardEvent.mk VUndefined (VNumber 13) (VString "hello")
       (VBool true) (VBool false) (VBool false) (VBool true))
    (VString "keydown")
  = KeyboardEvent.mk (VString "keydown") (VNumber 13) (VString "hello")
      (VBool true) (VBool false) (VBool false) (VBool true).
Proof.
  refine (KeyboardEvent_factory_then_clone (RT := sample_runtime)
            sample_heap' (VString "keydown") (VRef 11%positive)
            (VString "hello") (VString "keydown")
            (KeyboardEvent.mk VUndefined (VNumber 13) (VString "hello")
               (VBool true) (VBool false) (VBool false) (VBool true))
            _ eq_refl).
  vm_compute. reflexivity.
Defined.

Lemma PointerEvent_fromDomMouseEvent_type_range_witness :
  PointerEvent.type
    (PointerEvent.PointerEvent (VString "pointermove")
       (VNumber 100) (VNumber 60) (VNumber 150) (VNumber 80))
  <> VString "mousemove".
Proof.
  refine (proj2 (proj2 (proj2
            (PointerEvent_fromDomMouseEvent_type_range (RT := sample_runtime)
               sample_heap' (VRef 10%positive) (VNumber 50) (VNumber 20)
               (PointerEvent.PointerEvent (VString "pointermove")
                  (VNumber 100) (VNumber 60) (VNumber 150) (VNumber 80))
               _)))).
  vm_compute. reflexivity.
Defined.

(** ** Stage positions at the edges *)


Lemma sub_zero_r (x : float) : PrimFloat.sub x 0 = x.
Proof.
  apply Prim2SF_inj. rewrite FloatAxioms.sub_spec.
  change (Prim2SF 0) with (S754_zero false).
  destruct (Prim2SF x) as [s | s | | s m e]; try reflexivity.
  destruct s; reflexivity.
Qed.

Section EdgeFacts.
Context `{RT : Runtime}.


(** X15: with the stage at the viewport's origin, the stage position of an
    event is its client position: for numeric [clientX] and [clientY] and
    stage origin (0, 0), [fromDomEvent] returns the event constructed with
    the client coordinates as stage coordinates. *)
Theorem PointerEvent_fromDomEvent_origin_zero
    (h : heap) (l : loc) (t : value) (cx cy : float) :
  props (h l) !! "clientX"%string = Some (VNumber cx) ->
  props (h l) !! "clientY"%string = Some (VNumber cy) ->
  PointerEvent.fromDomEvent h t (VRef l) (VNumber 0) (VNumber 0)
  = Normal (PointerEvent.PointerEvent VUndefined
              (VNumber cx) (VNumber cy) (VNumber cx) (VNumber cy)).
Proof.
  intros Hx Hy. unfold PointerEvent.fromDomEvent, GetV, Get.
  rewrite Hx, Hy. cbn [mbind completion_bind mret completion_ret].
  unfold js_sub. cbn [ToNumber]. rewrite !sub_zero_r. reflexivity.
Qed.

End EdgeFacts.


Lemma PointerEvent_fromDomEvent_origin_zero_witness :
  PointerEvent.fromDomEvent (RT := sample_runtime) sample_heap VUndefined
    (VRef 1%positive) (VNumber 0) (VNumber 0)
  = Normal (PointerEvent.PointerEvent VUndefined
              (VNumber 150) (VNumber 80) (VNumber 150) (VNumber 80)).
Proof.
  exact (PointerEvent_fromDomEvent_origin_zero (RT := sample_runtime)
           sample_heap 1%positive VUndefined 150 80 eq_refl eq_refl).
Defined.

(** ** The index of a touch, for every value *)

Lemma indexOf_from_sound (x : value) (es : list value) :
  forall k0 : nat,
    match indexOf_from k0 es x with
    | Some k =>
        exists i e, k = (k0 + i)%nat
          /\ es !! i = Some e /\ strict_eq e x = true
          /\ forall j e', (j < i)%nat -> es !! j = Some e' ->
                          strict_eq e' x = false
    | None => forall e, e ∈ es -> strict_eq e x = false
    end.
Proof.
  induction es as [| e0 es IH]; intros k0; cbn [indexOf_from].
  - intros e He. apply elem_of_nil in He. destruct He.
  - destruct (strict_eq e0 x) eqn:Heq.
    + exists 0%nat, e0. split; [lia |]. split; [reflexivity |].
      split; [exact Heq |]. intros j e' Hj. lia.
    + specialize (IH (S k0)). destruct (indexOf_from (S k0) es x) as [k |].
      * destruct IH as (i & e & -> & Hi & He & Hfirst).
        exists (S i), e. split; [lia |]. split; [exact Hi |].
        split; [exact He |]. intros [| j] e' Hj Hj'.
        -- cbn in Hj'. injection Hj' as <-. exact Heq.
        -- apply (Hfirst j); [lia | exact Hj'].
      * intros e He. apply elem_of_cons in He as [-> | He];
          [exact Heq | apply IH, He].
Qed.

Section IndexFacts.
Context `{RT : Runtime}.

(** X16: when [fromDomTouch] returns, for any touch value and any parent
    whose [touches] is the collection at [lt], the event's [touchIndex] is
    either [-1], and then no element of the collection is strictly equal to
    the touch, or the number of a position below the collection's length
    whose element is strictly equal to the touch, no earlier one being
    so. *)
Theorem PointerEvent_fromDomTouch_index_sound
    (h : heap) (p d ox oy : value) (lt : loc) (ev : PointerEvent.t) :
  GetV h d "touches" = Normal (VRef lt) ->
  PointerEvent.fromDomTouch h p d ox oy = Normal ev ->
  (PointerEvent.touchIndex ev = VNumber (-1)%float
   /\ forall e, e ∈ elems (h lt) -> strict_eq e p = false)
  \/ exists (i : nat) (e : value),
       PointerEvent.touchIndex ev = VNumber (number_of_nat i)
       /\ (i < length (elems (h lt)))%nat
       /\ elems (h lt) !! i = Some e
       /\ strict_eq e p = true
       /\ forall j e', (j < i)%nat -> elems (h lt) !! j = Some e' ->
                       strict_eq e' p = false.
Proof.
  intros Ht Hev. unfold PointerEvent.fromDomTouch in Hev.
  bind_inv Hev. injection Hev as <-.
  injection Ht as ->.
  unfold indexOf_call in E3.
  cbn [ToObject_elems mbind completion_bind mret completion_ret] in E3.
  injection E3 as <-.
  cbn [PointerEvent.set_touchIndex PointerEvent.touchIndex].
  pose proof (indexOf_from_sound p (elems (h lt)) 0%nat) as Hs.
  destruct (indexOf_from 0 (elems (h lt)) p) as [k |].
  - right. destruct Hs as (i & e & -> & Hi & He & Hfirst).
    exists i, e. split; [reflexivity |].
    split; [apply lookup_lt_is_Some; eexists; exact Hi |].
    split; [exact Hi |]. split; [exact He | exact Hfirst].
  - left. split; [reflexivity | exact Hs].
Qed.

End IndexFacts.

Lemma PointerEvent_fromDomTouch_index_sound_witness :
  (PointerEvent.touchIndex
     (PointerEvent.set_touchIndex (VNumber 1)
        (PointerEvent.set_touchId (VNumber 41)
           (PointerEvent.PointerEvent VUndefined
              (VNumber (-30)%float) (VNumber 1) (VNumber 20) (VNumber 21))))
   = VNumber (-1)%float
   /\ forall e, e ∈ elems (sample_heap 7%positive) ->
                strict_eq e (VRef 5%positive) = false)
  \/ exists (i : nat) (e : value),
       PointerEvent.touchIndex
         (PointerEvent.set_touchIndex (VNumber 1)
            (PointerEvent.set_touchId (VNumber 41)
               (PointerEvent.PointerEvent VUndefined
                  (VNumber (-30)%float) (VNumber 1) (VNumber 20)
                  (VNumber 21))))
       = VNumber (number_of_nat i)
       /\ (i < length (elems (sample_heap 7%positive)))%nat
       /\ elems (sample_heap 7%positive) !! i = Some e
       /\ strict_eq e (VRef 5%positive) = true
       /\ forall j e', (j < i)%nat ->
                       elems (sample_heap 7%positive) !! j = Some e' ->
                       strict_eq e' (VRef 5%positive) = false.
Proof.
  exact (PointerEvent_fromDomTouch_index_sound (RT := sample_runtime)
           sample_heap (VRef 5%positive) (VRef 8%positive)
           (VNumber 50) (VNumber 20) 7%positive _ eq_refl eq_refl).
Defined.
